(** * Phone normalisation and OKVED suffix matching ([src/main.py])

    A shallow embedding of [main.py]: [normalise_phone_number],
    [parse_json], [find_match], [fallback_okved], and the driver [main]
    with [download_okved_file] over an explicit state of output, network
    requests and file, followed by the properties stated about them. *)

From Stdlib Require Import NArith ZArith Ascii String Strings.Byte.
From stdpp Require Import base list.

(** ** Strings

    A Python [str] is a sequence of Unicode code points; [len], slicing,
    [startswith] and [endswith] all count code points.  A string is
    therefore a list of code points, and a literal of the source (all of
    them ASCII where they matter) is written [str "..."]. *)

Definition char : Type := N.
Definition pystr : Type := list char.

Definition chr (a : ascii) : char := N_of_ascii a.

Definition str (s : string) : pystr :=
  List.map chr (list_ascii_of_string s).

(** [s.startswith(p)]. *)
Fixpoint startswith (s p : pystr) : bool :=
  match p, s with
  | [], _ => true
  | _ :: _, [] => false
  | c :: p', d :: s' => (c =? d)%N && startswith s' p'
  end.

(** [s.endswith(t)]: [t] is not longer than [s] and the last [len(t)]
    characters of [s] are [t]. *)
Definition endswith (s t : pystr) : bool :=
  (length t <=? length s) && bool_decide (drop (length s - length t) s = t).

(** [s[1:]]. *)
Definition slice_from_1 (s : pystr) : pystr := drop 1 s.

Section UnicodeDigits.

(** The pattern [r"\D"] is a [str] pattern, so [\d] is Unicode-aware: it
    matches the characters of category Nd.  Below U+0080 these are exactly
    ['0'..'9'] (48..57).  Above, they are listed by the Unicode database of
    the interpreter, which is not part of the program: that table is the
    variable [nd]. *)
Variable nd : char -> bool.

Definition is_digit (c : char) : bool :=
  if (c <? 128)%N then (48 <=? c)%N && (c <=? 57)%N else nd c.

(** [re.sub(r"\D", "", s)]: every character that is not a digit is
    deleted. *)
Definition strip_non_digits (s : pystr) : pystr := List.filter is_digit s.

(** ** Results of normalisation *)

(** The three error texts of [normalise_phone_number], in source order:
    - [UnsupportedFormat]: "Неподдерживаемый формат мобильного номера телефона"
    - [LengthMismatch]: "Номер не может быть приведён к формату +79XXXXXXXXX"
    - [NotRussianMobile]: "Не РФ мобильный номер телефона (+79XXXXXXXXX)" *)
Inductive ErrorText : Type :=
  | UnsupportedFormat
  | LengthMismatch
  | NotRussianMobile.

(** The frozen dataclass [NormalizeResult(ok, value=None, error=None)]. *)
Record NormalizeResult : Type := mkNormalizeResult {
  ok : bool;
  value : option pystr;
  error : option ErrorText
}.

Definition failure (e : ErrorText) : NormalizeResult :=
  mkNormalizeResult false None (Some e).
Definition success (v : pystr) : NormalizeResult :=
  mkNormalizeResult true (Some v) None.

(** ** [normalise_phone_number] *)

(** The [if]/[elif]/[elif]/[else] chain of lines 53-61: the coerced digit
    string, or [None] where the [else] branch returns. *)
Definition coerce (digits : pystr) : option pystr :=
  if (length digits =? 11) && startswith digits (str "8") then
    Some (str "7" ++ slice_from_1 digits)
  else if (length digits =? 11) && startswith digits (str "7") then
    Some digits
  else if (length digits =? 10) && startswith digits (str "9") then
    Some (str "7" ++ digits)
  else None.

Definition normalise_phone_number (phone_number : pystr) : NormalizeResult :=
  let digits := strip_non_digits phone_number in
  match coerce digits with
  | None => failure UnsupportedFormat
  | Some digits =>
      if negb (length digits =? 11) then failure LengthMismatch
      else if negb (startswith digits (str "79")) then failure NotRussianMobile
      else success (str "+" ++ digits)
  end.

(** ** The classification records and the tree they come from *)

(** The frozen dataclass [OkvedItem(code, name, code_digits)]. *)
Record OkvedItem : Type := mkOkvedItem {
  code : pystr;
  name : pystr;
  code_digits : pystr
}.

(** A node of the parsed JSON document, as [walk] reads it: the values
    [node.get("code")] and [node.get("name")] ([None] when the key is
    absent or null) and the list [node.get("items", [])] (empty when the key
    is absent).  Both values are strings when present, as in the OKVED
    document; a truthy value of another JSON type makes [re.sub] raise
    [TypeError] and is outside this type. *)
#[local] Unset Elimination Schemes.
Inductive TreeNode : Type :=
  | Node (c n : option pystr) (items : list TreeNode).
#[local] Set Elimination Schemes.

Definition get_code (node : TreeNode) : option pystr :=
  match node with Node c _ _ => c end.
Definition get_name (node : TreeNode) : option pystr :=
  match node with Node _ n _ => n end.
Definition get_items (node : TreeNode) : list TreeNode :=
  match node with Node _ _ items => items end.

(** Induction on a tree with the property at hand for every child. *)
Definition TreeNode_ind (P : TreeNode -> Prop)
    (step : forall c n items, Forall P items -> P (Node c n items))
    : forall node, P node :=
  fix go (node : TreeNode) : P node :=
    match node with
    | Node c n items =>
        step c n items
          ((fix children (l : list TreeNode) : Forall P l :=
              match l with
              | [] => @List.Forall_nil _ P
              | child :: l' =>
                  @List.Forall_cons _ P child l' (go child) (children l')
              end) items)
    end.

(** Truth value of a string: the empty string is falsy. *)
Definition truthy (s : pystr) : bool :=
  match s with [] => false | _ :: _ => true end.

(** ** [parse_json]

    The nested function [walk] appends to the list [result] of the
    enclosing call; the list is threaded through as state.  The recursion
    depth of the interpreter is not modelled: [walk] recurses once per
    level of the tree. *)
Fixpoint walk (node : TreeNode) (result : list OkvedItem) : list OkvedItem :=
  match node with
  | Node code name items =>
      let result :=
        match code, name with
        | Some code, Some name =>
            if truthy code && truthy name then
              let code_digits := strip_non_digits code in
              if truthy code_digits
              then result ++ [mkOkvedItem code name code_digits]
              else result
            else result
        | _, _ => result
        end in
      fold_left (fun result child => walk child result) items result
  end.

Definition parse_json (data : list TreeNode) : list OkvedItem :=
  fold_left (fun result root => walk root result) data [].

(** *** The flattening as section 4.2 words it

    Pre-order list of the nodes of a tree, the rule "per visited node", and
    the records of the visited nodes in traversal order. *)
Fixpoint preorder (node : TreeNode) : list TreeNode :=
  match node with
  | Node _ _ items => node :: flat_map preorder items
  end.

Definition record_of_node (node : TreeNode) : option OkvedItem :=
  match get_code node, get_name node with
  | Some c, Some n =>
      if bool_decide (c <> []) && bool_decide (n <> [])
         && existsb is_digit c
      then Some (mkOkvedItem c n (strip_non_digits c))
      else None
  | _, _ => None
  end.

Definition flatten_preorder (forest : list TreeNode) : list OkvedItem :=
  omap record_of_node (flat_map preorder forest).

End UnicodeDigits.

(** ** [find_match] *)

(** One iteration of the loop of lines 107-112 on the pair
    [(best_match, best_length)]. *)
Definition find_match_step (phone : pystr)
    (st : option OkvedItem * nat) (item : OkvedItem) : option OkvedItem * nat :=
  let '(best_match, best_length) := st in
  if endswith phone (code_digits item) then
    let length := length (code_digits item) in
    if best_length <? length then (Some item, length)
    else (best_match, best_length)
  else (best_match, best_length).

Definition find_match (phone : pystr) (okved_items : list OkvedItem)
    : option OkvedItem * nat :=
  fold_left (find_match_step phone) okved_items (None, 0).

(** The record's digits are a suffix of the phone digit string. *)
Definition matches (phone : pystr) (r : OkvedItem) : Prop :=
  code_digits r `suffix_of` phone.

(** What the pair [(best_match, best_length)] knows after the loop has
    consumed the records [seen]. *)
Definition scanned (phone : pystr) (seen : list OkvedItem)
    (st : option OkvedItem * nat) : Prop :=
  (forall r, r ∈ seen -> matches phone r -> length (code_digits r) <= st.2)
  /\ match st.1 with
     | None => st.2 = 0
     | Some b =>
         1 <= st.2 /\ st.2 = length (code_digits b) /\ matches phone b
         /\ exists before after,
              seen = before ++ b :: after
              /\ forall r, r ∈ before -> matches phone r ->
                           length (code_digits r) < st.2
     end.

(** ** [fallback_okved] *)

Inductive exn : Type := ValueError.

Inductive result (A : Type) : Type :=
  | Return (a : A)
  | Raise (e : exn).
Arguments Return {A} a.
Arguments Raise {A} e.

(** The builtin [min(iterable, key=...)]: the first item is the candidate,
    a later item replaces it only when its key is strictly smaller, and an
    empty iterable raises [ValueError]. *)
Definition min_step {A : Type} (key : A -> nat) (best item : A) : A :=
  if key item <? key best then item else best.

Definition py_min {A : Type} (key : A -> nat) (l : list A) : result A :=
  match l with
  | [] => Raise ValueError
  | x :: l' => Return (fold_left (min_step key) l' x)
  end.

Definition fallback_okved (okved_items : list OkvedItem) : result OkvedItem :=
  py_min (fun x => length (code_digits x)) okved_items.

(** ** The matching step of [main] (lines 179-183)

    [find_match], then [fallback_okved] with [match_len = 0] when no record
    was returned; an exception of [fallback_okved] is not caught. *)
Definition main_match (phone_digits : pystr) (okved_items : list OkvedItem)
    : result (OkvedItem * nat) :=
  let '(best, match_len) := find_match phone_digits okved_items in
  match best with
  | Some best => Return (best, match_len)
  | None =>
      match fallback_okved okved_items with
      | Return best => Return (best, 0)
      | Raise e => Raise e
      end
  end.

(** ** [main] and [download_okved_file]

    The driver reads its arguments, prints, asks whether [okved.json] is
    there, downloads it and reads it back.  Its surroundings are explicit:
    the state holds what was printed, how often [urlopen] went on to open
    a URL and the content of the file; the answer to an opened URL and the
    reading of the document are inputs. *)

(** [" ".join(l)] for a separator [sep]. *)
Fixpoint join (sep : pystr) (l : list pystr) : pystr :=
  match l with
  | [] => []
  | [x] => x
  | x :: l' => x ++ sep ++ join sep l'
  end.

(** [s.lstrip(chars)]: the leading characters that occur in [chars] are
    removed. *)
Fixpoint lstrip (chars s : pystr) : pystr :=
  match s with
  | [] => []
  | c :: s' => if bool_decide (c ∈ chars) then lstrip chars s' else s
  end.

Definition bytes : Type := list Byte.byte.

(** The exceptions met in [main]: the [ValueError] of [urlopen] for a URL
    without a scheme ("unknown url type"), [urlopen] raising on an opened
    URL, the [RuntimeError] of line 41, reading a file that is not there,
    a document that does not decode or parse as JSON, an exception raised
    inside [parse_json], [lstrip] on a [value] that is [None], and an
    exception of [fallback_okved]. *)
Inductive MainExn : Type :=
  | UnknownUrlType (url : pystr)
  | UrlopenError (msg : pystr)
  | HttpError (status : Z)
  | FileMissing
  | LoadError
  | ParseError
  | NoneValue
  | FallbackError (e : exn).

(** One call of [print], by source line:
    134 [UsageLine], 139 [SeparatorsLine], 144 [FalseLine],
    145 [ErrorLine] (with [result.error]), 148 [NormalisedLine] (with
    [result.value]), 155 [FalseErrorLine] (with [result.error]),
    158 [ValueLine] (with [result.value]), 162 [MissingLine],
    166 [LowerFalseLine], 167 [DownloadErrorLine], 170 [CachedLine],
    185 [OkvedLine] (code and name), 186 [MatchLengthLine]. *)
Inductive Line : Type :=
  | UsageLine
  | SeparatorsLine
  | FalseLine
  | ErrorLine (e : option ErrorText)
  | NormalisedLine (v : option pystr)
  | FalseErrorLine (e : option ErrorText)
  | ValueLine (v : option pystr)
  | MissingLine
  | LowerFalseLine
  | DownloadErrorLine (e : MainExn)
  | CachedLine
  | OkvedLine (code name : pystr)
  | MatchLengthLine (n : nat).

(** What [urlopen] does with a URL that it goes on to open: it answers
    with a status and a body, or raises. *)
Inductive Urlopen : Type :=
  | Responds (status : Z) (body : bytes)
  | Fails (msg : pystr).

(** Line 17.  The constant is not a URL: it has no scheme. *)
Definition JSON_URL : pystr := str "raw-git-link".

(** [urlopen] first builds a [Request] from the URL; that raises
    [ValueError] ("unknown url type") when the URL has no scheme, before
    anything is opened or sent.  A URL without a [":"] has none. *)
Definition has_colon (url : pystr) : bool := existsb (N.eqb (chr ":")) url.

(** What lines 175-176 make of the content of the file.
    [json.loads(JSON_FILE.read_text(encoding="utf-8"))] raises
    ([LoadRaises]); or it returns a value on which [parse_json] raises,
    such as a root or a child that is not an object, a truthy [code] that
    is not a string beside a truthy [name], or a value of [items] that
    cannot be iterated ([ParseRaises]); or [parse_json] runs through on
    the value, which is then read as the forest of the nodes that [walk]
    visits: a [code] or [name] that fails the test of line 85 as absent,
    and a truthy [name] that is not a string as the text that line 185
    prints for it ([Forest]). *)
Inductive Loaded : Type :=
  | Forest (data : list TreeNode)
  | ParseRaises
  | LoadRaises.

Record State : Type := mkState {
  stdout : list Line;
  requests : nat;
  okved_json : option bytes
}.

(** How a computation ends before its last statement: a [return] of
    [main] with its value, or an exception on its way up. *)
Inductive Stop : Type :=
  | Returned (v : option Z)
  | Uncaught (e : MainExn).

Definition M (A : Type) : Type := State -> State * (A + Stop).

#[export] Instance M_ret : MRet M := fun A a s => (s, inl a).
#[export] Instance M_bind : MBind M := fun A B k c s =>
  match c s with
  | (s', inl a) => k a s'
  | (s', inr stop) => (s', inr stop)
  end.

Definition print (l : Line) : M unit :=
  fun s => (mkState (stdout s ++ [l]) (requests s) (okved_json s), inl tt).
Definition return_ {A : Type} (v : option Z) : M A :=
  fun s => (s, inr (Returned v)).
Definition raise {A : Type} (e : MainExn) : M A :=
  fun s => (s, inr (Uncaught e)).
(** [try: c except Exception as e: handler e]. *)
Definition try_except {A : Type} (c : M A) (handler : MainExn -> M A) : M A :=
  fun s =>
    match c s with
    | (s', inr (Uncaught e)) => handler e s'
    | r => r
    end.
Definition is_file : M bool := fun s => (s, inl (bool_decide (is_Some (okved_json s)))).
Definition write_bytes (b : bytes) : M unit :=
  fun s => (mkState (stdout s) (requests s) (Some b), inl tt).
Definition read_file : M bytes :=
  fun s => match okved_json s with
           | Some b => (s, inl b)
           | None => (s, inr (Uncaught FileMissing))
           end.

Section Driver.

Variable nd : char -> bool.
Variable load : bytes -> Loaded.
Variable net : Urlopen.

(** Lines 39-42.  A URL without a scheme makes [urlopen] raise before it
    opens anything; otherwise the URL is opened, a status other than 200
    raises and the body of an answer with status 200 is written to the
    file. *)
Definition download_okved_file (url : pystr) : M unit :=
  fun s =>
    if negb (has_colon url) then raise (UnknownUrlType url) s
    else
      let s := mkState (stdout s) (S (requests s)) (okved_json s) in
      match net with
      | Fails msg => raise (UrlopenError msg) s
      | Responds status body =>
          if negb (status =? 200)%Z then raise (HttpError status) s
          else write_bytes body s
      end.

(** Step 1, lines 133-158: the normalisation result with which the run
    goes on. *)
Definition main_step1 (argv : list pystr) : M NormalizeResult :=
  match argv with
  | [] | [_] =>
      print UsageLine ;; return_ (Some 1%Z)
  | [_; phone] =>
      let result := normalise_phone_number nd phone in
      if negb (ok result) then
        print (FalseErrorLine (error result)) ;; return_ (Some 1%Z)
      else print (ValueLine (value result)) ;; mret result
  | _ :: tokens =>
      print SeparatorsLine ;;
      let raw_phone := join (str " ") tokens in
      let result := normalise_phone_number nd raw_phone in
      if negb (ok result) then
        print FalseLine ;; print (ErrorLine (error result)) ;;
        return_ (Some 1%Z)
      else print (NormalisedLine (value result)) ;; mret result
  end.

(** Step 2, lines 161-170. *)
Definition main_step2 : M unit :=
  present ← is_file;
  if negb present then
    print MissingLine ;;
    try_except (download_okved_file JSON_URL)
      (fun e => print LowerFalseLine ;; print (DownloadErrorLine e) ;;
                return_ (Some 1%Z))
  else print CachedLine.

(** Step 3, lines 175-186; the two assignments of lines 182-183 are
    [main_match]. *)
Definition main_step3 (result : NormalizeResult) : M unit :=
  content ← read_file;
  match load content with
  | LoadRaises => raise LoadError
  | ParseRaises => raise ParseError
  | Forest data =>
      let okved_items := parse_json nd data in
      match value result with
      | None => raise NoneValue
      | Some v =>
          let phone_digits := lstrip (str "+") v in
          match main_match phone_digits okved_items with
          | Raise e => raise (FallbackError e)
          | Return (best, match_len) =>
              print (OkvedLine (code best) (name best)) ;;
              print (MatchLengthLine match_len)
          end
      end
  end.

(** The body of [main]; falling off its end returns [None]. *)
Definition main (argv : list pystr) : M unit :=
  result ← main_step1 argv;
  main_step2 ;;
  main_step3 result ;;
  return_ None.

End Driver.

(** A run of [main] from a state where nothing was printed or requested
    and the file has the given content: the final state and how the run
    ended. *)
Definition run_main (nd : char -> bool) (load : bytes -> Loaded)
    (net : Urlopen) (file : option bytes) (argv : list pystr) : State * Stop :=
  match main nd load net argv (mkState [] 0 file) with
  | (s, inl _) => (s, Returned None)
  | (s, inr stop) => (s, stop)
  end.

(** The text that [main] normalises: [argv[1]] when there are exactly two
    arguments, the arguments after the first joined by spaces when there
    are more, none when there are fewer. *)
Definition phone_argument (argv : list pystr) : option pystr :=
  match argv with
  | [] | [_] => None
  | [_; phone] => Some phone
  | _ :: tokens => Some (join (str " ") tokens)
  end.

(** Whether there is such a text and its normalisation succeeds. *)
Definition valid_input (nd : char -> bool) (argv : list pystr) : bool :=
  match phone_argument argv with
  | Some p => ok (normalise_phone_number nd p)
  | None => false
  end.



(** ** Sample data *)

(** A table of non-ASCII decimal digits used to run the definitions on
    concrete inputs: Arabic-Indic, Devanagari and fullwidth digits. *)
Definition nd_sample (c : char) : bool :=
  ((1632 <=? c) && (c <=? 1641) || (2406 <=? c) && (c <=? 2415)
   || (65296 <=? c) && (c <=? 65305))%N.

(** Records used to run the matcher on concrete inputs. *)
Definition item_4567 : OkvedItem :=
  mkOkvedItem (str "45.67") (str "first") (str "4567").
Definition item_67 : OkvedItem :=
  mkOkvedItem (str "67") (str "second") (str "67").
Definition item_4567' : OkvedItem :=
  mkOkvedItem (str "4.5.6.7") (str "third") (str "4567").
Definition item_9991 : OkvedItem :=
  mkOkvedItem (str "99.91") (str "fourth") (str "9991").
Definition sample_items : list OkvedItem :=
  [item_67; item_9991; item_4567; item_4567'].

(** A forest used to run the flattening: a section node without digits in
    its code, a node without name, and nested children. *)
Definition sample_forest : list TreeNode :=
  [ Node (Some (str "A")) (Some (str "Section A"))
      [ Node (Some (str "01")) (Some (str "Crops"))
          [ Node (Some (str "01.1")) (Some (str "Annual")) [];
            Node (Some (str "01.2")) None
              [ Node (Some (str "01.21")) (Some (str "Grapes")) [] ] ];
        Node (Some (str "02")) (Some []) [];
        Node None None
          [ Node (Some (str "03")) (Some (str "Fishing")) [] ] ];
    Node (Some (str "10")) (Some (str "Food")) [] ].

(** A document reader and a file content for running [main]: an empty
    file does not parse, a content that opens an object is no forest, and
    every other content reads as [sample_forest] followed by two nodes
    with the codes ["45.67"] and ["67"]. *)
Definition sample_document : list TreeNode :=
  sample_forest
  ++ [ Node (Some (str "45.67")) (Some (str "Retail"))
         [ Node (Some (str "67")) (Some (str "Other")) [] ] ].
Definition sample_load (content : bytes) : Loaded :=
  match content with
  | [] => LoadRaises
  | Byte.x7b :: _ => ParseRaises
  | _ :: _ => Forest sample_document
  end.
Definition sample_content : bytes := [Byte.x5b; Byte.x5d].

(** Replaces the literals [str "..."] and [chr "..."] by their code
    points. *)
Ltac literals :=
  repeat match goal with
    | |- context [str ?s] =>
        let v := eval vm_compute in (str s) in change (str s) with v
    | |- context [chr ?a] =>
        let v := eval vm_compute in (chr a) in change (chr a) with v
    | H : context [str ?s] |- _ =>
        let v := eval vm_compute in (str s) in change (str s) with v in H
    | H : context [chr ?a] |- _ =>
        let v := eval vm_compute in (chr a) in change (chr a) with v in H
    end.

(** * Properties *)

(** ** Scenarios of section 8 *)

Example scenario_1 nd :
  normalise_phone_number nd (str "89991234567") = success (str "+79991234567").
Proof. reflexivity. Qed.

Example scenario_2 nd :
  normalise_phone_number nd (str "9991234567") = success (str "+79991234567").
Proof. reflexivity. Qed.

Example scenario_3 nd :
  normalise_phone_number nd (str "+7 (999) 123-45-67")
  = success (str "+79991234567").
Proof. reflexivity. Qed.

(** A decimal digit outside ASCII (here U+0667) is kept by the stripping
    and counts towards the 11 characters. *)
Example non_ascii_digit_kept :
  normalise_phone_number nd_sample (str "8 999 123-45-6" ++ [1639%N])
  = success (str "+7999123456" ++ [1639%N]).
Proof. reflexivity. Qed.

Example scenario_4 nd :
  normalise_phone_number nd (str "12345") = failure UnsupportedFormat.
Proof. reflexivity. Qed.

(** ** Strings *)

Lemma startswith_cons (s : pystr) (c : char) (p : pystr) :
  startswith s (c :: p) = true <->
  exists s', s = c :: s' /\ startswith s' p = true.
Proof.
  destruct s as [|d s']; simpl.
  - split; [discriminate | intros (s' & [=] & _)].
  - rewrite andb_true_iff, N.eqb_eq. split.
    + intros [-> Hp]. eauto.
    + intros (s'' & [= -> ->] & Hp). auto.
Qed.

Lemma startswith_nil (s : pystr) : startswith s [] = true.
Proof. by destruct s. Qed.

Lemma startswith_prefix (s p : pystr) :
  startswith s p = true <-> p `prefix_of` s.
Proof.
  revert s. induction p as [|c p IH]; intros s.
  - rewrite startswith_nil. split; [intros _; apply prefix_nil | done].
  - rewrite startswith_cons. split.
    + intros (s' & -> & Hp). apply prefix_cons, IH, Hp.
    + intros [k ->]. exists (p ++ k). split; [done|].
      apply IH. by exists k.
Qed.

Lemma endswith_suffix (s t : pystr) :
  endswith s t = true <-> t `suffix_of` s.
Proof.
  unfold endswith. rewrite andb_true_iff, Nat.leb_le, bool_decide_eq_true.
  split.
  - intros [_ Hd]. exists (take (length s - length t) s).
    symmetry. etrans; [|apply (take_drop (length s - length t) s)].
    by rewrite Hd.
  - intros [k ->]. rewrite length_app. split; [lia|].
    replace (length k + length t - length t) with (length k) by lia.
    by rewrite drop_app_length.
Qed.

Lemma endswith_nil (s : pystr) : endswith s [] = true.
Proof. apply endswith_suffix, suffix_nil. Qed.

(** ** [normalise_phone_number] *)

Section Normalise.

Variable nd : char -> bool.

Lemma strip_non_digits_all (s : pystr) :
  forallb (is_digit nd) s = true -> strip_non_digits nd s = s.
Proof.
  unfold strip_non_digits. induction s as [|c s IH]; simpl; [done|].
  rewrite andb_true_iff. intros [-> Hs]. by rewrite IH.
Qed.

Lemma strip_non_digits_app (s t : pystr) :
  strip_non_digits nd (s ++ t) = strip_non_digits nd s ++ strip_non_digits nd t.
Proof. apply List.filter_app. Qed.

Lemma strip_non_digits_forallb (s : pystr) :
  forallb (is_digit nd) (strip_non_digits nd s) = true.
Proof.
  unfold strip_non_digits. induction s as [|c s IH]; simpl; [done|].
  destruct (is_digit nd c) eqn:Hc; simpl; [by rewrite Hc|done].
Qed.

(** Whatever branch of the chain accepts, the coerced string has 11
    characters. *)
Lemma coerce_length (digits d : pystr) :
  coerce digits = Some d -> length d = 11.
Proof.
  unfold coerce.
  destruct (length digits =? 11) eqn:H11; simpl.
  - apply Nat.eqb_eq in H11.
    destruct (startswith digits (str "8")) eqn:H8.
    + literals. apply startswith_cons in H8 as (s' & -> & _).
      intros [= <-]. unfold slice_from_1. simpl in *. rewrite drop_0. lia.
    + destruct (startswith digits (str "7")); [by intros [= <-]|].
      destruct (length digits =? 10) eqn:H10; [|done].
      apply Nat.eqb_eq in H10. lia.
  - destruct (length digits =? 10) eqn:H10; simpl; [|done].
    apply Nat.eqb_eq in H10.
    destruct (startswith digits (str "9")); [|done].
    intros [= <-]. simpl. lia.
Qed.

(** After an accepted coercion only the prefix test of line 67 decides. *)
Lemma normalise_coerced (raw d : pystr) :
  coerce (strip_non_digits nd raw) = Some d ->
  normalise_phone_number nd raw =
    if startswith d (str "79") then success (str "+" ++ d)
    else failure NotRussianMobile.
Proof.
  intros Hc. unfold normalise_phone_number. rewrite Hc.
  apply coerce_length in Hc. rewrite Hc. simpl.
  by destruct (startswith d _).
Qed.

Lemma coerce_8 (rest : pystr) :
  length rest = 10 ->
  coerce (chr "8" :: rest) = Some (chr "7" :: rest).
Proof.
  intros Hl. unfold coerce, slice_from_1. literals. simpl.
  by rewrite Hl, startswith_nil, drop_0.
Qed.

Lemma coerce_7 (rest : pystr) :
  length rest = 10 ->
  coerce (chr "7" :: rest) = Some (chr "7" :: rest).
Proof.
  intros Hl. unfold coerce. literals. simpl.
  by rewrite Hl, startswith_nil.
Qed.

(** Coercion keeps a string of digits a string of digits. *)
Lemma coerce_digits (digits d : pystr) :
  forallb (is_digit nd) digits = true ->
  coerce digits = Some d -> forallb (is_digit nd) d = true.
Proof.
  intros Hd. unfold coerce, slice_from_1.
  destruct (_ && startswith digits (str "8")).
  - intros [= <-]. destruct digits as [|c ds]; [done|].
    simpl in *. apply andb_true_iff in Hd as [_ Hd]. by rewrite drop_0.
  - destruct (_ && startswith digits (str "7")); [by intros [= <-]|].
    destruct (_ && startswith digits (str "9")); [|done].
    by intros [= <-].
Qed.

(** A string ["+79"] followed by nine digits is a fixed point. *)
Lemma normalise_canonical (rest : pystr) :
  length rest = 9 -> forallb (is_digit nd) rest = true ->
  normalise_phone_number nd (str "+79" ++ rest) = success (str "+79" ++ rest).
Proof.
  intros Hl Hd.
  rewrite (normalise_coerced _ (str "79" ++ rest)).
  - literals. simpl. by rewrite startswith_nil.
  - rewrite strip_non_digits_app, (strip_non_digits_all rest Hd).
    apply coerce_7. simpl. lia.
Qed.

(** Every successful value is ["+79"] followed by nine digits. *)
Lemma normalise_success_shape (raw v : pystr) :
  normalise_phone_number nd raw = success v ->
  exists rest, v = str "+79" ++ rest /\ length rest = 9
               /\ forallb (is_digit nd) rest = true.
Proof.
  unfold normalise_phone_number.
  destruct (coerce _) as [d|] eqn:Hc; [|done].
  pose proof (coerce_length _ _ Hc) as Hl. rewrite Hl. simpl.
  apply coerce_digits in Hc; [|apply strip_non_digits_forallb].
  destruct (startswith d (str "79")) eqn:H79; [|done]. simpl.
  intros [= <-]. literals.
  apply startswith_cons in H79 as (d1 & -> & H9).
  apply startswith_cons in H9 as (rest & -> & _).
  exists rest. split; [done|]. split; [simpl in Hl; lia|].
  simpl in Hc. by repeat apply andb_true_iff in Hc as [_ Hc].
Qed.

(** Normalising a successful value gives it back. *)
Lemma normalise_idempotent (raw v : pystr) :
  normalise_phone_number nd raw = success v ->
  normalise_phone_number nd v = success v.
Proof.
  intros (rest & -> & Hl & Hd)%normalise_success_shape.
  by apply normalise_canonical.
Qed.

End Normalise.

(** C1 (as stated, refuted): the raw input ["80001234567"] strips to 11
    digits starting with ["8"], yet the result is the failure
    [NotRussianMobile] and not the success ["+70001234567"]. *)
Lemma normalise_8_not_always_success :
  exists raw, raw = str "80001234567" /\
    forall nd,
      let digits := strip_non_digits nd raw in
      length digits = 11 /\ startswith digits (str "8") = true /\
      normalise_phone_number nd raw = failure NotRussianMobile /\
      normalise_phone_number nd raw <> success (str "+7" ++ slice_from_1 digits).
Proof.
  eexists. split; [reflexivity|]. intros nd. by vm_compute.
Qed.

(** C1 (amended): for every raw input whose stripped digits form an
    11-character string starting with ["89"], [normalise_phone_number]
    returns a success whose value is ["+7"] followed by the remaining 10
    digits. *)
Theorem normalise_89_success (nd : char -> bool) (raw : pystr) :
  length (strip_non_digits nd raw) = 11 ->
  startswith (strip_non_digits nd raw) (str "89") = true ->
  normalise_phone_number nd raw
  = success (str "+7" ++ slice_from_1 (strip_non_digits nd raw)).
Proof.
  intros Hl H89. literals.
  apply startswith_cons in H89 as (s1 & Hs & H9).
  apply startswith_cons in H9 as (rest & -> & _).
  rewrite (normalise_coerced nd raw (chr "7" :: chr "9" :: rest)).
  - rewrite Hs. unfold slice_from_1. literals. simpl.
    by rewrite startswith_nil.
  - rewrite Hs. apply (coerce_8 (_ :: rest)). rewrite Hs in Hl. simpl in *. lia.
Qed.

Lemma normalise_89_success_witness :
  let raw := str "8 (999) 123-45-67" in
  length (strip_non_digits nd_sample raw) = 11 /\
  startswith (strip_non_digits nd_sample raw) (str "89") = true /\
  normalise_phone_number nd_sample raw = success (str "+79991234567").
Proof.
  split; [reflexivity|]. split; [reflexivity|].
  apply (normalise_89_success nd_sample (str "8 (999) 123-45-67"));
    reflexivity.
Defined.

(** C9: for every raw input whose stripped digits form an 11-character
    string starting with ["8"] whose second digit is not ["9"],
    [normalise_phone_number] returns the failure [NotRussianMobile]. *)
Theorem normalise_8_not_9_fails (nd : char -> bool) (raw : pystr) :
  length (strip_non_digits nd raw) = 11 ->
  startswith (strip_non_digits nd raw) (str "8") = true ->
  strip_non_digits nd raw !! 1 <> Some (chr "9") ->
  normalise_phone_number nd raw = failure NotRussianMobile.
Proof.
  intros Hl H8 H9. literals.
  apply startswith_cons in H8 as (rest & Hs & _).
  rewrite Hs in Hl, H9.
  rewrite (normalise_coerced nd raw (chr "7" :: rest)).
  - destruct (startswith (chr "7" :: rest) (str "79")) eqn:E; [|done].
    literals.
    apply startswith_cons in E as (s1 & [= <-] & E).
    apply startswith_cons in E as (s2 & -> & _).
    by destruct H9.
  - rewrite Hs. apply coerce_8. simpl in Hl. lia.
Qed.

Lemma normalise_8_not_9_fails_witness :
  let raw := str "8-495-123-45-67" in
  length (strip_non_digits nd_sample raw) = 11 /\
  startswith (strip_non_digits nd_sample raw) (str "8") = true /\
  strip_non_digits nd_sample raw !! 1 <> Some (chr "9") /\
  normalise_phone_number nd_sample raw = failure NotRussianMobile.
Proof.
  split; [reflexivity|]. split; [reflexivity|].
  assert (strip_non_digits nd_sample (str "8-495-123-45-67") !! 1
          <> Some (chr "9")) as H9 by (vm_compute; discriminate).
  split; [exact H9|].
  exact (normalise_8_not_9_fails nd_sample (str "8-495-123-45-67")
           eq_refl eq_refl H9).
Defined.

(** C7: the length check of lines 63-64 never fails: whenever one of the
    three format rules accepts, the coerced digit string has exactly 11
    characters, and no input makes [normalise_phone_number] return the
    [LengthMismatch] failure. *)
Theorem length_mismatch_unreachable (nd : char -> bool) (raw : pystr) :
  match coerce (strip_non_digits nd raw) with
  | Some digits => length digits = 11
  | None => True
  end
  /\ error (normalise_phone_number nd raw) <> Some LengthMismatch
  /\ normalise_phone_number nd raw <> failure LengthMismatch.
Proof.
  unfold normalise_phone_number.
  destruct (coerce _) as [d|] eqn:Hc; [|done].
  rewrite (coerce_length _ _ Hc). simpl.
  by destruct (startswith d _).
Qed.

(** C6: normalisation is idempotent on its own successful outputs: every
    value that [normalise_phone_number] returns with success is ["+"],
    then ["7"], then 10 more digits (11 digits in all), and normalising
    that value returns a success whose value is the same string,
    unchanged. *)
Theorem normalise_idempotent_on_outputs (nd : char -> bool) (raw v : pystr) :
  normalise_phone_number nd raw = success v ->
  (exists rest, v = str "+7" ++ rest /\ length rest = 10
                /\ forallb (is_digit nd) rest = true)
  /\ normalise_phone_number nd v = success v.
Proof.
  intros Hv. split; [|by apply (normalise_idempotent nd raw)].
  apply normalise_success_shape in Hv as (rest & -> & Hl & Hd).
  exists (chr "9" :: rest). split; [done|]. split; [simpl; lia|].
  simpl. by rewrite Hd.
Qed.

Lemma normalise_idempotent_on_outputs_witness :
  (exists rest, str "+79991234567" = str "+7" ++ rest /\ length rest = 10
                /\ forallb (is_digit nd_sample) rest = true)
  /\ normalise_phone_number nd_sample (str "+79991234567")
     = success (str "+79991234567").
Proof.
  apply (normalise_idempotent_on_outputs nd_sample (str "8 (999) 123-45-67")
           (str "+79991234567")).
  reflexivity.
Defined.

(** A string of that shape which is no output, because its second digit
    is not ["9"], is rejected. *)
Example plus7_not_an_output nd :
  normalise_phone_number nd (str "+70001234567") = failure NotRussianMobile.
Proof. reflexivity. Qed.

(** ** [find_match] *)

Section FindMatch.

Variable phone : pystr.

Lemma scanned_init : scanned phone [] (None, 0).
Proof. split; [by intros r ?%elem_of_nil|done]. Qed.

Lemma scanned_step (seen : list OkvedItem) st (item : OkvedItem) :
  scanned phone seen st -> scanned phone (seen ++ [item]) (find_match_step phone st item).
Proof.
  destruct st as [best n]. intros [Hmax Hbest]. simpl in *.
  unfold find_match_step.
  destruct (endswith phone (code_digits item)) eqn:He.
  - apply endswith_suffix in He.
    destruct (Nat.ltb_spec n (length (code_digits item))) as [Hlt|Hge].
    + split; simpl.
      * intros r [Hr| ->%list_elem_of_singleton]%elem_of_app Hm; [|done].
        specialize (Hmax r Hr Hm). lia.
      * split; [lia|]. split; [done|]. split; [done|].
        exists seen, []. split; [done|].
        intros r Hr Hm. specialize (Hmax r Hr Hm). lia.
    + split; simpl.
      * by intros r [Hr| ->%list_elem_of_singleton]%elem_of_app Hm; [apply Hmax|].
      * destruct best as [b|]; [|done].
        destruct Hbest as (H1 & Hn & Hb & before & after & -> & Hbefore).
        do 3 (split; [done|]).
        exists before, (after ++ [item]). by rewrite <- app_assoc.
  - split; simpl.
    + intros r [Hr| ->%list_elem_of_singleton]%elem_of_app Hm; [by apply Hmax|].
      apply endswith_suffix in Hm. congruence.
    + destruct best as [b|]; [|done].
      destruct Hbest as (H1 & Hn & Hb & before & after & -> & Hbefore).
      do 3 (split; [done|]).
      exists before, (after ++ [item]). by rewrite <- app_assoc.
Qed.

Lemma find_match_scanned (okved_items : list OkvedItem) :
  scanned phone okved_items (find_match phone okved_items).
Proof.
  unfold find_match.
  induction okved_items as [|item seen IH] using rev_ind.
  - apply scanned_init.
  - rewrite fold_left_app. simpl. by apply scanned_step.
Qed.

End FindMatch.

(** C2: whenever [find_match] returns a record, the phone digit string ends
    with that record's digits, the returned length is the length of those
    digits, no record of the list whose digits are a suffix of the phone
    digit string has strictly longer digits, and every matching record that
    comes earlier in the list is strictly shorter, so that among the
    records of maximal suffix length the first one is returned. *)
Theorem find_match_longest_first (phone : pystr)
    (okved_items : list OkvedItem) (best : OkvedItem) (match_length : nat) :
  find_match phone okved_items = (Some best, match_length) ->
  code_digits best `suffix_of` phone
  /\ match_length = length (code_digits best)
  /\ (forall r, r ∈ okved_items -> code_digits r `suffix_of` phone ->
                length (code_digits r) <= length (code_digits best))
  /\ exists before after,
       okved_items = before ++ best :: after
       /\ forall r, r ∈ before -> code_digits r `suffix_of` phone ->
                    length (code_digits r) < length (code_digits best).
Proof.
  intros Hfm. pose proof (find_match_scanned phone okved_items) as [Hmax Hb].
  rewrite Hfm in Hmax, Hb. simpl in *.
  destruct Hb as (_ & -> & Hm & before & after & -> & Hbefore).
  split; [done|]. split; [done|]. split; [done|]. by exists before, after.
Qed.

(** C5: when every record's digits are non-empty, [find_match] returns
    [match_length = 0] exactly when no record's digits are a suffix of the
    phone digit string. *)
Theorem find_match_zero_iff_no_suffix (phone : pystr)
    (okved_items : list OkvedItem) :
  Forall (fun r => code_digits r <> []) okved_items ->
  (find_match phone okved_items).2 = 0 <->
  forall r, r ∈ okved_items -> ~ code_digits r `suffix_of` phone.
Proof.
  intros Hne. pose proof (find_match_scanned phone okved_items) as [Hmax Hb].
  rewrite Forall_forall in Hne. split.
  - intros H0 r Hr Hm. specialize (Hmax r Hr Hm). rewrite H0 in Hmax.
    apply (Hne r Hr). apply nil_length_inv. lia.
  - intros Hnone. destruct (find_match phone okved_items).1 as [b|]; [|done].
    destruct Hb as (_ & _ & Hm & before & after & -> & _).
    destruct (Hnone b); [|done]. apply elem_of_app. right. left.
Qed.

(** C10: for every phone digit string and every record list, also one with
    records of empty digits, [find_match] returns a record if and only if
    the returned length is at least 1; a record never comes with length 0,
    and a returned record never has empty digits. *)
Theorem find_match_record_iff_positive (phone : pystr)
    (okved_items : list OkvedItem) :
  (is_Some (find_match phone okved_items).1 <->
   1 <= (find_match phone okved_items).2)
  /\ ~ (is_Some (find_match phone okved_items).1
        /\ (find_match phone okved_items).2 = 0)
  /\ forall r, (find_match phone okved_items).1 = Some r ->
               code_digits r <> [].
Proof.
  pose proof (find_match_scanned phone okved_items) as [_ Hb].
  destruct (find_match phone okved_items) as [[b|] n]; simpl in *.
  - destruct Hb as (H1 & Hn & _). split; [|split].
    + split; [done|]. by eexists.
    + intros [_ ->]. lia.
    + intros r [= <-] Hnil. rewrite Hnil in Hn. simpl in Hn. lia.
  - subst n. split; [|split].
    + split; [by intros [? [=]]|lia].
    + by intros [[? [=]] _].
    + done.
Qed.

Lemma find_match_longest_first_witness :
  find_match (str "79991234567") sample_items = (Some item_4567, 4)
  /\ code_digits item_4567 `suffix_of` str "79991234567"
  /\ 4 = length (code_digits item_4567)
  /\ (forall r, r ∈ sample_items ->
        code_digits r `suffix_of` str "79991234567" ->
        length (code_digits r) <= length (code_digits item_4567))
  /\ exists before after,
       sample_items = before ++ item_4567 :: after
       /\ forall r, r ∈ before -> code_digits r `suffix_of` str "79991234567" ->
                    length (code_digits r) < length (code_digits item_4567).
Proof.
  split; [reflexivity|].
  apply (find_match_longest_first (str "79991234567") sample_items
           item_4567 4).
  reflexivity.
Defined.

Lemma find_match_zero_iff_no_suffix_witness :
  Forall (fun r => code_digits r <> []) sample_items
  /\ ((find_match (str "79991234500") sample_items).2 = 0 <->
      forall r, r ∈ sample_items ->
                ~ code_digits r `suffix_of` str "79991234500").
Proof.
  assert (Forall (fun r => code_digits r <> []) sample_items) as Hne.
  { unfold sample_items. repeat constructor; vm_compute; discriminate. }
  split; [exact Hne|].
  exact (find_match_zero_iff_no_suffix (str "79991234500") sample_items Hne).
Defined.

(** Scenario 5 of section 8, on data where exactly one record is a
    trailing suffix. *)
Example scenario_5 :
  find_match (str "79991234567") [item_9991; item_67] = (Some item_67, 2).
Proof. reflexivity. Qed.

(** A record whose digits are empty matches every phone number and is
    never selected. *)
Example find_match_empty_digits :
  find_match (str "79991234567")
    [mkOkvedItem (str "A") (str "section") []; item_67]
  = (Some item_67, 2)
  /\ find_match (str "79991234567")
       [mkOkvedItem (str "A") (str "section") []]
     = (None, 0).
Proof. split; reflexivity. Qed.

(** ** [fallback_okved] *)

Section PyMin.

Context {A : Type} (key : A -> nat).

(** The candidate after the scan of [x :: l]: strictly smaller than
    everything before it, not greater than anything after it. *)
Lemma py_min_scan (x : A) (l : list A) :
  exists before after,
    x :: l = before ++ fold_left (min_step key) l x :: after
    /\ (forall y, y ∈ before -> key (fold_left (min_step key) l x) < key y)
    /\ (forall y, y ∈ after -> key (fold_left (min_step key) l x) <= key y).
Proof.
  induction l as [|item l IH] using rev_ind.
  - exists [], []. split; [done|]. split; by intros y ?%elem_of_nil.
  - rewrite fold_left_app. simpl.
    destruct IH as (before & after & Heq & Hb & Ha).
    set (m := fold_left (min_step key) l x) in *.
    assert (min_step key m item = if key item <? key m then item else m)
      as Hm by done.
    destruct (Nat.ltb_spec (key item) (key m)) as [Hlt|Hge]; rewrite Hm.
    + exists (x :: l), []. split; [done|]. split; [|by intros y ?%elem_of_nil].
      intros y Hy. rewrite Heq in Hy.
      apply elem_of_app in Hy as [Hy|Hy]; [specialize (Hb y Hy); lia|].
      apply elem_of_cons in Hy as [->|Hy]; [done|].
      specialize (Ha y Hy). lia.
    + exists before, (after ++ [item]). split; [|split; [done|]].
      * rewrite app_comm_cons, Heq. by rewrite <- app_assoc.
      * intros y [Hy| ->%list_elem_of_singleton]%elem_of_app; [by apply Ha|done].
Qed.

End PyMin.

(** C3: on a non-empty list [fallback_okved] returns a record of the list
    whose digits are the shortest of all, and every record before it in
    the list has strictly longer digits: of several shortest records the
    first is returned. *)
Theorem fallback_okved_first_shortest (okved_items : list OkvedItem) :
  okved_items <> [] ->
  exists best before after,
    fallback_okved okved_items = Return best
    /\ okved_items = before ++ best :: after
    /\ (forall r, r ∈ okved_items ->
          length (code_digits best) <= length (code_digits r))
    /\ (forall r, r ∈ before ->
          length (code_digits best) < length (code_digits r)).
Proof.
  destruct okved_items as [|x l]; [done|]. intros _.
  destruct (py_min_scan (fun r => length (code_digits r)) x l)
    as (before & after & Heq & Hb & Ha).
  eexists _, before, after. split; [reflexivity|]. split; [exact Heq|].
  split; [|exact Hb].
  intros r Hr. rewrite Heq in Hr.
  apply elem_of_app in Hr as [Hr|Hr]; [specialize (Hb r Hr); simpl in *; lia|].
  apply elem_of_cons in Hr as [->|Hr]; [done|]. by apply Ha.
Qed.

Lemma fallback_okved_first_shortest_witness :
  exists best before after,
    fallback_okved [item_9991; item_4567; item_67; item_4567'] = Return best
    /\ [item_9991; item_4567; item_67; item_4567'] = before ++ best :: after
    /\ (forall r, r ∈ [item_9991; item_4567; item_67; item_4567'] ->
          length (code_digits best) <= length (code_digits r))
    /\ (forall r, r ∈ before ->
          length (code_digits best) < length (code_digits r)).
Proof.
  apply (fallback_okved_first_shortest
           [item_9991; item_4567; item_67; item_4567']).
  discriminate.
Defined.

(** Of the three records with four digits the first one is the fallback. *)
Example fallback_okved_tie :
  fallback_okved [item_9991; item_4567; item_4567'] = Return item_9991.
Proof. reflexivity. Qed.

(** C8: on the empty record list [fallback_okved] returns no record: the
    call raises, and the matching step of [main], which reaches the
    fallback because [find_match] found nothing, fails with it. *)
Theorem fallback_okved_empty_raises (phone : pystr) :
  fallback_okved [] = Raise ValueError
  /\ (forall r, fallback_okved [] <> Return r)
  /\ find_match phone [] = (None, 0)
  /\ main_match phone [] = Raise ValueError.
Proof. repeat split. discriminate. Qed.

(** ** [parse_json] *)

Section ParseJson.

Variable nd : char -> bool.

Lemma truthy_nonempty (s : pystr) : truthy s = bool_decide (s <> []).
Proof. by destruct s. Qed.

Lemma truthy_strip_non_digits (s : pystr) :
  truthy (strip_non_digits nd s) = existsb (is_digit nd) s.
Proof.
  unfold strip_non_digits. induction s as [|c s IH]; simpl; [done|].
  by destruct (is_digit nd c).
Qed.

(** Lines 85-88 append the record of the node, if it has one; the loop of
    lines 90-91 then runs on the extended list. *)
Lemma walk_node (c n : option pystr) (items : list TreeNode)
    (result : list OkvedItem) :
  walk nd (Node c n items) result =
  fold_left (fun result child => walk nd child result) items
    (result ++ option_list (record_of_node nd (Node c n items))).
Proof.
  simpl. f_equal. unfold record_of_node. simpl.
  destruct c as [c|], n as [n|]; simpl; try by rewrite app_nil_r.
  rewrite <- !truthy_nonempty, <- truthy_strip_non_digits, <- andb_assoc.
  destruct (truthy c), (truthy n); simpl; try by rewrite app_nil_r.
  destruct (truthy (strip_non_digits nd c)); simpl; by rewrite ?app_nil_r.
Qed.

Lemma walk_children (items : list TreeNode) :
  Forall (fun node => forall result,
            walk nd node result
            = result ++ omap (record_of_node nd) (preorder node)) items ->
  forall result,
    fold_left (fun result child => walk nd child result) items result
    = result ++ omap (record_of_node nd) (flat_map preorder items).
Proof.
  induction 1 as [|child items Hchild _ IH]; intros result; simpl.
  - by rewrite app_nil_r.
  - by rewrite Hchild, IH, omap_app, app_assoc.
Qed.

(** [walk] appends the records of the subtree, in pre-order. *)
Lemma walk_preorder (node : TreeNode) (result : list OkvedItem) :
  walk nd node result = result ++ omap (record_of_node nd) (preorder node).
Proof.
  revert result. induction node as [c n items IH] using TreeNode_ind.
  intros result. rewrite walk_node, (walk_children items IH).
  rewrite <- app_assoc. f_equal.
  change (preorder (Node c n items))
    with (Node c n items :: flat_map preorder items).
  change (omap ?f (?x :: ?l)) with (from_option (fun y => y :: omap f l) (omap f l) (f x)).
  by destruct (record_of_node nd (Node c n items)).
Qed.

Lemma record_of_node_spec (node : TreeNode) (r : OkvedItem) :
  record_of_node nd node = Some r <->
  exists c n,
    get_code node = Some c /\ get_name node = Some n
    /\ c <> [] /\ n <> []
    /\ (exists d, d ∈ c /\ is_digit nd d = true)
    /\ r = mkOkvedItem c n (strip_non_digits nd c).
Proof.
  unfold record_of_node. split.
  - destruct (get_code node) as [c|], (get_name node) as [n|]; try done.
    destruct (_ && _) eqn:Hb; [|done]. intros [= <-].
    apply andb_true_iff in Hb as [[Hc Hn]%andb_true_iff Hd].
    apply bool_decide_eq_true in Hc, Hn.
    apply existsb_exists in Hd as (d & Hd%list_elem_of_In & Hdd).
    exists c, n. eauto 10.
  - intros (c & n & -> & -> & Hc & Hn & (d & Hd & Hdd) & ->).
    rewrite !bool_decide_true by done. simpl.
    replace (existsb (is_digit nd) c) with true; [done|].
    symmetry. apply existsb_exists. exists d. by rewrite <- list_elem_of_In.
Qed.

End ParseJson.

(** C4: [parse_json] returns the records of the nodes of the forest in
    pre-order, each root followed by its descendants: a visited node with
    non-empty code and name and at least one digit in its code gives exactly
    one record, whose digits are the code without its non-digit characters;
    any other node gives none, and its children are visited all the same. *)
Theorem parse_json_preorder (nd : char -> bool) (data : list TreeNode) :
  parse_json nd data = flatten_preorder nd data
  /\ forall node r,
       record_of_node nd node = Some r <->
       exists c n,
         get_code node = Some c /\ get_name node = Some n
         /\ c <> [] /\ n <> []
         /\ (exists d, d ∈ c /\ is_digit nd d = true)
         /\ r = mkOkvedItem c n (strip_non_digits nd c).
Proof.
  split; [|apply record_of_node_spec].
  unfold parse_json, flatten_preorder.
  rewrite (walk_children nd data); [done|].
  apply Forall_forall. intros node _ result. apply walk_preorder.
Qed.

Example parse_json_sample_forest :
  parse_json nd_sample sample_forest =
  [ mkOkvedItem (str "01") (str "Crops") (str "01");
    mkOkvedItem (str "01.1") (str "Annual") (str "011");
    mkOkvedItem (str "01.21") (str "Grapes") (str "0121");
    mkOkvedItem (str "03") (str "Fishing") (str "03");
    mkOkvedItem (str "10") (str "Food") (str "10") ].
Proof. reflexivity. Qed.

(** * Further properties *)

(** ** [normalise_phone_number]: the accepted and the rejected inputs *)

Lemma startswith_step (c : char) (s : pystr) (p : char) (ps : pystr) :
  startswith (c :: s) (p :: ps) = (p =? c)%N && startswith s ps.
Proof. done. Qed.

(** Takes the tests on lengths and leading characters apart. *)
Ltac digit_cases :=
  literals; cbn [length app];
  rewrite ?startswith_step, ?startswith_nil, ?andb_true_r;
  repeat match goal with
    | |- context [(?a =? ?b)%N] => destruct (N.eqb_spec a b); subst
    | |- context [Nat.eqb ?a ?b] => destruct (Nat.eqb_spec a b)
    end;
  cbn [andb orb negb].

(** The result read off the length and the first two digits. *)
Lemma normalise_by_digits (nd : char -> bool) (raw : pystr) :
  normalise_phone_number nd raw =
  let digits := strip_non_digits nd raw in
  match coerce digits with
  | None => failure UnsupportedFormat
  | Some d =>
      if startswith d (str "79") then success (str "+" ++ d)
      else failure NotRussianMobile
  end.
Proof.
  simpl. destruct (coerce _) as [d|] eqn:Hc.
  - by apply normalise_coerced.
  - unfold normalise_phone_number. by rewrite Hc.
Qed.

Lemma coerce_None (digits : pystr) :
  coerce digits = None <->
  ~ (length digits = 11
     /\ (startswith digits (str "8") = true
         \/ startswith digits (str "7") = true))
  /\ ~ (length digits = 10 /\ startswith digits (str "9") = true).
Proof.
  unfold coerce.
  destruct (Nat.eqb_spec (length digits) 11) as [H11|H11],
    (Nat.eqb_spec (length digits) 10) as [H10|H10],
    (startswith digits (str "8")), (startswith digits (str "7")),
    (startswith digits (str "9")); simpl;
    (split; [try done; intros _; split; intros [? ?]; intuition (lia || done)
            | intros [? ?]; try done; exfalso; intuition (lia || done)]).
Qed.

(** When a rule accepts, the test of line 67 succeeds exactly on the
    three shapes that lead to ["79..."]. *)
Lemma coerce_startswith_79 (digits d : pystr) :
  coerce digits = Some d ->
  startswith d (str "79") = true <->
  (length digits = 11
   /\ (startswith digits (str "89") = true
       \/ startswith digits (str "79") = true))
  \/ (length digits = 10 /\ startswith digits (str "9") = true).
Proof.
  unfold coerce, slice_from_1.
  destruct digits as [|c1 [|c2 rest]]; [done| |].
  - digit_cases; try done.
  - digit_cases; try done; intros [= <-]; digit_cases;
      try (intuition (lia || done)).
Qed.

Lemma strip_non_digits_none (nd : char -> bool) (sep : pystr) :
  forallb (fun c => negb (is_digit nd c)) sep = true ->
  strip_non_digits nd sep = [].
Proof.
  unfold strip_non_digits. induction sep as [|c sep IH]; simpl; [done|].
  rewrite andb_true_iff. intros [Hc Hs]. destruct (is_digit nd c); [done|auto].
Qed.


(** X1: when the stripped digits are 10 characters starting with ["9"],
    the result is a success whose value is ["+7"] followed by these ten
    digits. *)
Theorem normalise_10_digits (nd : char -> bool) (raw : pystr) :
  length (strip_non_digits nd raw) = 10 ->
  startswith (strip_non_digits nd raw) (str "9") = true ->
  normalise_phone_number nd raw
  = success (str "+7" ++ strip_non_digits nd raw).
Proof.
  rewrite normalise_by_digits. cbn zeta.
  generalize (strip_non_digits nd raw). intros digits.
  unfold coerce. destruct digits as [|c1 rest]; [done|].
  digit_cases; intros; digit_cases; done || lia.
Qed.

Lemma normalise_10_digits_witness :
  normalise_phone_number nd_sample (str "(999) 123-45-67")
  = success (str "+79991234567").
Proof.
  apply (normalise_10_digits nd_sample (str "(999) 123-45-67"));
    reflexivity.
Defined.

(** X2: when the stripped digits are 11 characters starting with ["79"],
    the result is a success whose value is ["+"] followed by these eleven
    digits, unchanged. *)
Theorem normalise_11_digits_79 (nd : char -> bool) (raw : pystr) :
  length (strip_non_digits nd raw) = 11 ->
  startswith (strip_non_digits nd raw) (str "79") = true ->
  normalise_phone_number nd raw
  = success (str "+" ++ strip_non_digits nd raw).
Proof.
  rewrite normalise_by_digits. cbn zeta.
  generalize (strip_non_digits nd raw). intros digits.
  unfold coerce. destruct digits as [|c1 [|c2 rest]]; [done..|].
  digit_cases; intros; digit_cases; done || lia.
Qed.

Lemma normalise_11_digits_79_witness :
  normalise_phone_number nd_sample (str "7 (999) 123 45 67")
  = success (str "+79991234567").
Proof.
  apply (normalise_11_digits_79 nd_sample (str "7 (999) 123 45 67"));
    reflexivity.
Defined.

(** X3: the result is the [UnsupportedFormat] failure exactly when the
    stripped digits are neither 11 characters starting with ["8"] or
    ["7"] nor 10 characters starting with ["9"]. *)
Theorem normalise_unsupported_iff (nd : char -> bool) (raw : pystr) :
  normalise_phone_number nd raw = failure UnsupportedFormat <->
  ~ (length (strip_non_digits nd raw) = 11
     /\ (startswith (strip_non_digits nd raw) (str "8") = true
         \/ startswith (strip_non_digits nd raw) (str "7") = true))
  /\ ~ (length (strip_non_digits nd raw) = 10
        /\ startswith (strip_non_digits nd raw) (str "9") = true).
Proof.
  rewrite <- coerce_None, normalise_by_digits. cbn zeta.
  destruct (coerce _) as [d|]; [|done].
  by destruct (startswith d _).
Qed.

(** X4: the result is a success exactly when the stripped digits are 11
    characters starting with ["89"] or ["79"], or 10 characters starting
    with ["9"]. *)
Theorem normalise_ok_iff (nd : char -> bool) (raw : pystr) :
  ok (normalise_phone_number nd raw) = true <->
  (length (strip_non_digits nd raw) = 11
   /\ (startswith (strip_non_digits nd raw) (str "89") = true
       \/ startswith (strip_non_digits nd raw) (str "79") = true))
  \/ (length (strip_non_digits nd raw) = 10
      /\ startswith (strip_non_digits nd raw) (str "9") = true).
Proof.
  rewrite normalise_by_digits. cbn zeta.
  destruct (coerce _) as [d|] eqn:Hc.
  - rewrite <- (coerce_startswith_79 _ _ Hc). by destruct (startswith d _).
  - apply coerce_None in Hc as [H11 H10]. split; [discriminate|].
    intros [[Hl Hs]|H]; [|by destruct H10].
    destruct H11. split; [done|]. destruct Hs as [H89|H79].
    + left. literals. apply startswith_cons in H89 as (s' & -> & _).
      by rewrite startswith_step, startswith_nil.
    + right. literals. apply startswith_cons in H79 as (s' & -> & _).
      by rewrite startswith_step, startswith_nil.
Qed.

(** X5: the result is the [NotRussianMobile] failure exactly when the
    stripped digits are 11 characters starting with ["8"] or ["7"] whose
    second character is not ["9"]. *)
Theorem normalise_not_russian_iff (nd : char -> bool) (raw : pystr) :
  normalise_phone_number nd raw = failure NotRussianMobile <->
  length (strip_non_digits nd raw) = 11
  /\ (startswith (strip_non_digits nd raw) (str "8") = true
      \/ startswith (strip_non_digits nd raw) (str "7") = true)
  /\ strip_non_digits nd raw !! 1 <> Some (chr "9").
Proof.
  rewrite normalise_by_digits. cbn zeta.
  generalize (strip_non_digits nd raw). intros digits.
  unfold coerce, slice_from_1.
  destruct digits as [|c1 [|c2 rest]].
  - digit_cases; split; (done || intros (? & ? & ?); done || lia).
  - digit_cases; split; (done || intros (? & ? & ?); done || lia).
  - digit_cases; cbn [drop lookup list_lookup]; digit_cases;
      (split; [try done|]);
      try (intros (? & ? & ?); done || lia || intuition (done || lia));
      intros _; (split; [lia|]); (split; [auto|]); congruence.
Qed.

(** X6: in every result exactly one of [value] and [error] is set, and
    [ok] says which: a success carries a value and no error, a failure an
    error and no value. *)
Theorem normalise_result_wellformed (nd : char -> bool) (raw : pystr) :
  (ok (normalise_phone_number nd raw) = true
   /\ is_Some (value (normalise_phone_number nd raw))
   /\ error (normalise_phone_number nd raw) = None)
  \/ (ok (normalise_phone_number nd raw) = false
      /\ value (normalise_phone_number nd raw) = None
      /\ is_Some (error (normalise_phone_number nd raw))).
Proof.
  rewrite normalise_by_digits. cbn zeta.
  destruct (coerce _) as [d|]; [destruct (startswith d _)|]; simpl;
    eauto 10.
Qed.

(** X7: a successful value has 12 characters: ["+79"] and nine digits;
    stripping it of its non-digits removes the ["+"] only. *)
Theorem normalise_success_value (nd : char -> bool) (raw v : pystr) :
  normalise_phone_number nd raw = success v ->
  length v = 12
  /\ startswith v (str "+79") = true
  /\ strip_non_digits nd v = drop 1 v
  /\ forallb (is_digit nd) (drop 1 v) = true.
Proof.
  intros (rest & -> & Hl & Hd)%normalise_success_shape.
  literals. cbn [app length drop].
  split; [lia|]. split; [by rewrite !startswith_step, startswith_nil|].
  assert (forallb (is_digit nd) (55%N :: 57%N :: rest) = true) as Hall
    by (simpl; exact Hd).
  split; [|exact Hall].
  change (43%N :: 55%N :: 57%N :: rest)
    with ([43%N] ++ 55%N :: 57%N :: rest).
  by rewrite strip_non_digits_app, (strip_non_digits_all nd _ Hall).
Qed.

Lemma normalise_success_value_witness :
  length (str "+79991234567") = 12
  /\ startswith (str "+79991234567") (str "+79") = true
  /\ strip_non_digits nd_sample (str "+79991234567")
     = drop 1 (str "+79991234567")
  /\ forallb (is_digit nd_sample) (drop 1 (str "+79991234567")) = true.
Proof.
  apply (normalise_success_value nd_sample (str "8 999 123 45 67")).
  reflexivity.
Defined.

(** X8: characters that are not digits do not matter, wherever they
    stand: inserting a run of them changes nothing in the result. *)
Theorem normalise_ignores_separators (nd : char -> bool) (a sep b : pystr) :
  forallb (fun c => negb (is_digit nd c)) sep = true ->
  normalise_phone_number nd (a ++ sep ++ b)
  = normalise_phone_number nd (a ++ b).
Proof.
  intros Hsep. unfold normalise_phone_number.
  by rewrite !strip_non_digits_app, (strip_non_digits_none nd sep Hsep).
Qed.

Lemma normalise_ignores_separators_witness :
  normalise_phone_number nd_sample (str "8999" ++ str " - (" ++ str "1234567")
  = normalise_phone_number nd_sample (str "8999" ++ str "1234567").
Proof.
  apply (normalise_ignores_separators nd_sample); reflexivity.
Defined.

(** ** [parse_json]: the records and how forests compose *)

Lemma parse_json_omap (nd : char -> bool) (data : list TreeNode) :
  parse_json nd data = omap (record_of_node nd) (flat_map preorder data).
Proof.
  unfold parse_json. rewrite (walk_children nd data); [done|].
  apply Forall_forall. intros node _ result. apply walk_preorder.
Qed.

(** X9: every record of the output comes from a node of the forest, with
    that node's code and name, both non-empty; its [code_digits] are the
    code without its non-digits, are not empty and hold digits only. *)
Theorem parse_json_records_wellformed (nd : char -> bool)
    (data : list TreeNode) (r : OkvedItem) :
  r ∈ parse_json nd data ->
  (exists node, node ∈ flat_map preorder data
                /\ get_code node = Some (code r)
                /\ get_name node = Some (name r))
  /\ code r <> [] /\ name r <> []
  /\ code_digits r = strip_non_digits nd (code r)
  /\ code_digits r <> []
  /\ forallb (is_digit nd) (code_digits r) = true.
Proof.
  rewrite parse_json_omap, list_elem_of_omap.
  intros (node & Hnode & Hr).
  apply record_of_node_spec in Hr
    as (c & n & Hc & Hn & Hc0 & Hn0 & (d & Hd & Hdd) & ->). simpl.
  split; [by exists node|]. do 3 (split; [done|]).
  split; [|apply strip_non_digits_forallb].
  intros Hnil.
  assert (d ∈ strip_non_digits nd c) as Hin
    by (apply list_elem_of_In, filter_In; by rewrite <- list_elem_of_In).
  rewrite Hnil in Hin. by apply elem_of_nil in Hin.
Qed.

Lemma parse_json_records_wellformed_witness :
  let r := mkOkvedItem (str "01.21") (str "Grapes") (str "0121") in
  (exists node, node ∈ flat_map preorder sample_forest
                /\ get_code node = Some (code r)
                /\ get_name node = Some (name r))
  /\ code r <> [] /\ name r <> []
  /\ code_digits r = strip_non_digits nd_sample (code r)
  /\ code_digits r <> []
  /\ forallb (is_digit nd_sample) (code_digits r) = true.
Proof.
  apply (parse_json_records_wellformed nd_sample sample_forest).
  apply list_elem_of_In. vm_compute. tauto.
Defined.

(** X10: a concatenation of forests is flattened to the concatenation of
    the flattenings. *)
Theorem parse_json_app (nd : char -> bool) (data1 data2 : list TreeNode) :
  parse_json nd (data1 ++ data2) = parse_json nd data1 ++ parse_json nd data2.
Proof. by rewrite !parse_json_omap, flat_map_app, omap_app. Qed.

(** X11: [walk] only appends: the records already in [result] stay in
    front, unchanged, followed by what the subtree gives on its own. *)
Theorem walk_appends (nd : char -> bool) (node : TreeNode)
    (result : list OkvedItem) :
  walk nd node result = result ++ walk nd node [].
Proof. by rewrite (walk_preorder nd node result), (walk_preorder nd node []). Qed.

Lemma omap_cons_option_list {A B : Type} (f : A -> option B) (x : A)
    (l : list A) :
  omap f (x :: l) = option_list (f x) ++ omap f l.
Proof.
  change (omap f (x :: l))
    with (from_option (fun y => y :: omap f l) (omap f l) (f x)).
  by destruct (f x).
Qed.

(** X12: the record of a root comes first, then the records of its
    children as if they were roots themselves, then those of the roots
    that follow. *)
Theorem parse_json_cons (nd : char -> bool) (c n : option pystr)
    (items rest : list TreeNode) :
  parse_json nd (Node c n items :: rest)
  = parse_json nd [Node c n []] ++ parse_json nd items ++ parse_json nd rest.
Proof.
  rewrite !parse_json_omap. cbn [flat_map preorder app].
  rewrite !omap_cons_option_list, omap_app.
  by rewrite <- app_assoc.
Qed.

(** ** [find_match]: bounds, irrelevant records, concatenation *)

Lemma suffix_length_le (s t : pystr) : t `suffix_of` s -> length t <= length s.
Proof. intros [k ->]. rewrite length_app. lia. Qed.

(** X13: no record is returned exactly when every record whose digits
    are a suffix of the phone digit string has empty digits; this needs no
    assumption on the records. *)
Theorem find_match_none_iff (phone : pystr) (okved_items : list OkvedItem) :
  (find_match phone okved_items).1 = None <->
  forall r, r ∈ okved_items -> code_digits r `suffix_of` phone ->
            code_digits r = [].
Proof.
  pose proof (find_match_scanned phone okved_items) as [Hmax Hb].
  destruct (find_match phone okved_items) as [[b|] n]; simpl in *.
  - destruct Hb as (H1 & Hn & Hm & before & after & -> & _).
    split; [done|]. intros Hall.
    rewrite (Hall b) in Hn; [simpl in Hn; lia| |done].
    apply elem_of_app. right. left.
  - subst n. split; [|done]. intros _ r Hr Hm.
    specialize (Hmax r Hr Hm). apply nil_length_inv. lia.
Qed.

(** X14: the returned length is never greater than the length of the
    phone digit string, and a returned record is one of the list. *)
Theorem find_match_bounded (phone : pystr) (okved_items : list OkvedItem) :
  (find_match phone okved_items).2 <= length phone
  /\ forall best, (find_match phone okved_items).1 = Some best ->
                  best ∈ okved_items.
Proof.
  pose proof (find_match_scanned phone okved_items) as [_ Hb].
  destruct (find_match phone okved_items) as [[b|] n]; simpl in *.
  - destruct Hb as (_ & -> & Hm & before & after & -> & _). split.
    + by apply suffix_length_le.
    + intros ? [= <-]. apply elem_of_app. right. left.
  - subst n. split; [lia|done].
Qed.

(** A record that does not match, or whose digits are empty, leaves the
    state of the loop as it is. *)
Lemma find_match_step_skip (phone : pystr) st (item : OkvedItem) :
  endswith phone (code_digits item) && truthy (code_digits item) = false ->
  find_match_step phone st item = st.
Proof.
  destruct st as [b n]. unfold find_match_step.
  destruct (endswith phone (code_digits item)); [|done]. simpl.
  destruct (code_digits item); [|done]. intros _. simpl.
  by destruct (Nat.ltb_spec n 0); [lia|].
Qed.

(** X15: records that cannot be selected, because their digits are empty
    or are no suffix of the phone digit string, can be dropped from the
    list without changing the result. *)
Theorem find_match_filter (phone : pystr) (okved_items : list OkvedItem) :
  find_match phone okved_items
  = find_match phone
      (List.filter (fun r => endswith phone (code_digits r)
                             && truthy (code_digits r)) okved_items).
Proof.
  unfold find_match. generalize (@None OkvedItem, 0).
  induction okved_items as [|item l IH]; intros st; simpl; [done|].
  destruct (endswith phone (code_digits item) && truthy (code_digits item))
    eqn:Hsel; simpl.
  - apply IH.
  - rewrite find_match_step_skip by done. apply IH.
Qed.

(** The loop started from any state [st]: the scan of the records from
    the initial state wins when its length is greater, otherwise [st]
    stays. *)
Lemma find_match_from (phone : pystr) (l : list OkvedItem)
    (st : option OkvedItem * nat) :
  fold_left (find_match_step phone) l st
  = if st.2 <? (find_match phone l).2 then find_match phone l else st.
Proof.
  unfold find_match. induction l as [|x l IH] using rev_ind; simpl.
  - by destruct (Nat.ltb_spec st.2 0); [lia|].
  - rewrite !fold_left_app. simpl. rewrite IH.
    set (r := fold_left (find_match_step phone) l (None, 0)).
    destruct st as [b n], r as [rb rn]. simpl. unfold find_match_step.
    destruct (endswith phone (code_digits x)); simpl;
      repeat match goal with
        | |- context [Nat.ltb ?a ?b] => destruct (Nat.ltb_spec a b)
        | H : context [Nat.ltb ?a ?b] |- _ =>
            destruct (Nat.ltb_spec a b); simpl in H
        end; simpl in *; try done; lia.
Qed.

(** X16: on a concatenation the result of the first list stays unless
    the second list alone gives a strictly longer match, which then is the
    result. *)
Theorem find_match_app (phone : pystr) (l1 l2 : list OkvedItem) :
  find_match phone (l1 ++ l2)
  = if (find_match phone l1).2 <? (find_match phone l2).2
    then find_match phone l2 else find_match phone l1.
Proof.
  rewrite <- find_match_from. unfold find_match. by rewrite fold_left_app.
Qed.

(** ** The matching step of [main] *)

Lemma fallback_okved_cons (x : OkvedItem) (l : list OkvedItem) :
  exists best before after,
    fallback_okved (x :: l) = Return best
    /\ x :: l = before ++ best :: after
    /\ forall r, r ∈ x :: l ->
                 length (code_digits best) <= length (code_digits r).
Proof.
  destruct (py_min_scan (fun r => length (code_digits r)) x l)
    as (before & after & Heq & Hb & Ha).
  eexists _, before, after. split; [reflexivity|]. split; [exact Heq|].
  intros r Hr. rewrite Heq in Hr.
  apply elem_of_app in Hr as [Hr|Hr]; [specialize (Hb r Hr); simpl in *; lia|].
  apply elem_of_cons in Hr as [->|Hr]; [done|]. by apply Ha.
Qed.

(** X17: the matching step fails exactly when there is no record at all:
    with at least one record it always names one. *)
Theorem main_match_raises_iff_empty (phone : pystr)
    (okved_items : list OkvedItem) :
  (exists e, main_match phone okved_items = Raise e) <-> okved_items = [].
Proof.
  split.
  - intros [e He]. destruct okved_items as [|x l]; [done|]. exfalso.
    revert He. unfold main_match.
    destruct (find_match phone (x :: l)) as [[b|] n]; [done|].
    by destruct (fallback_okved_cons x l) as (best & ? & ? & -> & _).
  - intros ->. by exists ValueError.
Qed.

(** X18: the record named by the matching step is one of the list and the
    reported length is at most the length of the phone digit string; a
    length of at least 1 is the length of the record's digits, which are a
    suffix; a length of 0 comes with a record of shortest digits, and then
    no record with non-empty digits is a suffix. *)
Theorem main_match_result (phone : pystr) (okved_items : list OkvedItem)
    (best : OkvedItem) (match_len : nat) :
  main_match phone okved_items = Return (best, match_len) ->
  best ∈ okved_items
  /\ match_len <= length phone
  /\ (1 <= match_len ->
      match_len = length (code_digits best)
      /\ code_digits best `suffix_of` phone)
  /\ (match_len = 0 ->
      (forall r, r ∈ okved_items ->
                 length (code_digits best) <= length (code_digits r))
      /\ (forall r, r ∈ okved_items -> code_digits r `suffix_of` phone ->
                    code_digits r = [])).
Proof.
  unfold main_match.
  pose proof (find_match_scanned phone okved_items) as [Hmax Hb].
  destruct (find_match phone okved_items) as [[b|] n]; simpl in *.
  - intros [= <- <-].
    destruct Hb as (H1 & Hn & Hm & before & after & -> & _).
    split; [apply elem_of_app; right; left|].
    split; [rewrite Hn; by apply suffix_length_le|].
    split; [done|lia].
  - subst n. destruct okved_items as [|x l]; [done|].
    destruct (fallback_okved_cons x l) as (b & before & after & -> & Heq & Hmin).
    intros [= <- <-].
    split; [rewrite Heq; apply elem_of_app; right; left|].
    split; [lia|]. split; [lia|]. intros _. split; [done|].
    intros r Hr Hm. specialize (Hmax r Hr Hm). apply nil_length_inv. lia.
Qed.

Lemma main_match_result_witness :
  item_4567 ∈ sample_items
  /\ 4 <= length (str "79991234567")
  /\ (1 <= 4 ->
      4 = length (code_digits item_4567)
      /\ code_digits item_4567 `suffix_of` str "79991234567")
  /\ (4 = 0 ->
      (forall r, r ∈ sample_items ->
                 length (code_digits item_4567) <= length (code_digits r))
      /\ (forall r, r ∈ sample_items ->
                    code_digits r `suffix_of` str "79991234567" ->
                    code_digits r = [])).
Proof.
  apply (main_match_result (str "79991234567") sample_items item_4567 4).
  reflexivity.
Defined.

Lemma parse_json_digits_nonempty (nd : char -> bool) (data : list TreeNode)
    (r : OkvedItem) :
  r ∈ parse_json nd data -> code_digits r <> [].
Proof.
  rewrite parse_json_omap, list_elem_of_omap. intros (node & _ & Hr).
  apply record_of_node_spec in Hr as (c & n & _ & _ & _ & _ & (d & Hd & Hdd) & ->).
  simpl. intros Hnil.
  assert (d ∈ strip_non_digits nd c) as Hin
    by (apply list_elem_of_In, filter_In; by rewrite <- list_elem_of_In).
  rewrite Hnil in Hin. by apply elem_of_nil in Hin.
Qed.

(** X19: on the records that [parse_json] produces, the matching step
    reports the length 0 exactly when no record's digits are a suffix of
    the phone digit string, and the record it names has non-empty
    digits. *)
Theorem pipeline_zero_iff_no_suffix (nd : char -> bool)
    (data : list TreeNode) (phone : pystr) (best : OkvedItem)
    (match_len : nat) :
  main_match phone (parse_json nd data) = Return (best, match_len) ->
  (match_len = 0 <->
   forall r, r ∈ parse_json nd data -> ~ code_digits r `suffix_of` phone)
  /\ code_digits best <> [].
Proof.
  intros Hmm.
  assert (best ∈ parse_json nd data) as Hin.
  { revert Hmm. unfold main_match.
    pose proof (find_match_scanned phone (parse_json nd data)) as [_ Hb].
    destruct (find_match phone (parse_json nd data)) as [[b|] n]; simpl in *.
    - intros [= <- <-]. destruct Hb as (_ & _ & _ & before & after & -> & _).
      apply elem_of_app. right. left.
    - destruct (parse_json nd data) as [|x l]; [done|].
      destruct (fallback_okved_cons x l) as (b & ? & ? & -> & -> & _).
      intros [= <- <-]. apply elem_of_app. right. left. }
  split; [|by apply (parse_json_digits_nonempty nd data)].
  revert Hmm. unfold main_match.
  pose proof (find_match_scanned phone (parse_json nd data)) as [Hmax Hb].
  destruct (find_match phone (parse_json nd data)) as [[b|] n]; simpl in *.
  - intros [= <- <-]. destruct Hb as (H1 & Hn & Hm & _).
    split; [lia|]. intros Hnone. by destruct (Hnone b).
  - subst n. destruct (fallback_okved (parse_json nd data)); [|done].
    intros [= <- <-]. split; [|done]. intros _ r Hr Hm.
    specialize (Hmax r Hr Hm).
    apply (parse_json_digits_nonempty nd data r Hr), nil_length_inv. lia.
Qed.

Lemma pipeline_zero_iff_no_suffix_witness :
  let best := mkOkvedItem (str "01") (str "Crops") (str "01") in
  (0 = 0 <->
   forall r, r ∈ parse_json nd_sample sample_forest ->
             ~ code_digits r `suffix_of` str "79991234567")
  /\ code_digits best <> [].
Proof.
  apply (pipeline_zero_iff_no_suffix nd_sample sample_forest
           (str "79991234567")
           (mkOkvedItem (str "01") (str "Crops") (str "01")) 0).
  reflexivity.
Defined.

(** ** [main] *)

Example main_cached_run :
  run_main nd_sample sample_load (Fails []) (Some sample_content)
    [str "main.py"; str "+7"; str "(999)"; str "123-45-67"]
  = (mkState
       [ SeparatorsLine; NormalisedLine (Some (str "+79991234567"));
         CachedLine; OkvedLine (str "45.67") (str "Retail");
         MatchLengthLine 4 ]
       0 (Some sample_content),
     Returned None).
Proof. reflexivity. Qed.

(** Without the file the run stops at the download, even when the
    network would answer. *)
Example main_missing_file_run :
  run_main nd_sample sample_load (Responds 200 sample_content) None
    [str "main.py"; str "89991234500"]
  = (mkState
       [ ValueLine (Some (str "+79991234500")); MissingLine;
         LowerFalseLine; DownloadErrorLine (UnknownUrlType JSON_URL) ]
       0 None,
     Returned (Some 1%Z)).
Proof. reflexivity. Qed.

Example main_not_a_forest_run :
  run_main nd_sample sample_load (Fails []) (Some [Byte.x7b; Byte.x7d])
    [str "main.py"; str "89991234500"]
  = (mkState [ValueLine (Some (str "+79991234500")); CachedLine] 0
       (Some [Byte.x7b; Byte.x7d]),
     Uncaught ParseError).
Proof. reflexivity. Qed.

Example main_invalid_run :
  run_main nd_sample sample_load (Responds 200 sample_content) None
    [str "main.py"; str "12345"]
  = (mkState [FalseErrorLine (Some UnsupportedFormat)] 0 None,
     Returned (Some 1%Z)).
Proof. reflexivity. Qed.

(** With a URL of a scheme, [download_okved_file] opens it once and
    writes the body of an answer with status 200. *)
Example download_okved_file_https :
  download_okved_file (Responds 200 sample_content)
    (str "https://example.org/okved.json") (mkState [] 0 None)
  = (mkState [] 1 (Some sample_content), inl tt)
  /\ download_okved_file (Responds 204 [])
       (str "https://example.org/okved.json") (mkState [] 0 None)
     = (mkState [] 1 None, inr (Uncaught (HttpError 204))).
Proof. split; reflexivity. Qed.

Lemma has_colon_JSON_URL : has_colon JSON_URL = false.
Proof. reflexivity. Qed.

(** The download of [main] raises before anything is opened. *)
Lemma download_JSON_URL (net : Urlopen) (s : State) :
  download_okved_file net JSON_URL s
  = (s, inr (Uncaught (UnknownUrlType JSON_URL))).
Proof. unfold download_okved_file. by rewrite has_colon_JSON_URL. Qed.


(** What a run does, case by case: the input, the file, the reading of
    the document and the matching step. *)
Lemma run_main_cases (nd : char -> bool)
    (load : bytes -> Loaded) (net : Urlopen)
    (file : option bytes) (argv : list pystr) :
  let s := (run_main nd load net file argv).1 in
  let stop := (run_main nd load net file argv).2 in
  requests s = 0 /\ okved_json s = file
  /\ match phone_argument argv with
     | None => stop = Returned (Some 1%Z) /\ stdout s = [UsageLine]
     | Some p =>
         let r := normalise_phone_number nd p in
         if negb (ok r) then stop = Returned (Some 1%Z)
         else
           match file with
           | None =>
               stop = Returned (Some 1%Z)
               /\ exists out,
                    stdout s
                    = out ++ [MissingLine; LowerFalseLine;
                              DownloadErrorLine (UnknownUrlType JSON_URL)]
           | Some content =>
               match load content with
               | LoadRaises => stop = Uncaught LoadError
               | ParseRaises => stop = Uncaught ParseError
               | Forest data =>
                   match value r with
                   | None => stop = Uncaught NoneValue
                   | Some v =>
                       match main_match (lstrip (str "+") v)
                               (parse_json nd data) with
                       | Raise e => stop = Uncaught (FallbackError e)
                       | Return (best, n) =>
                           stop = Returned None
                           /\ exists out,
                                stdout s
                                = out ++ [OkvedLine (code best) (name best);
                                          MatchLengthLine n]
                       end
                   end
               end
           end
     end.
Proof.
  unfold run_main, main, main_step1, main_step2, main_step3, phone_argument,
    mbind, mret, M_bind, M_ret, try_except.
  destruct argv as [|a0 [|a1 [|a2 rest]]]; [done..| |].
  all: cbn zeta; set (r := normalise_phone_number nd _); clearbody r.
  all: destruct r as [[|] v e]; [|done].
  all: destruct file as [content|].
  all: unfold print, return_, raise, is_file, read_file;
    cbn -[parse_json main_match lstrip str download_okved_file JSON_URL];
    rewrite ?download_JSON_URL;
    cbn -[parse_json main_match lstrip str JSON_URL].
  all: repeat match goal with
       | |- context [match ?x with
                     | Forest _ => _ | ParseRaises => _ | LoadRaises => _
                     end] =>
           destruct x as [data| |];
           cbn -[parse_json main_match lstrip str JSON_URL]
       | |- context [match ?v with Some _ => _ | None => _ end] =>
           is_var v; destruct v;
           cbn -[parse_json main_match lstrip str JSON_URL]
       | |- context [main_match ?a ?b] =>
           destruct (main_match a b) as [[best n]|err];
           cbn -[parse_json main_match lstrip str JSON_URL]
       end.
  all: repeat split; try done.
  all: first [ by eexists [_] | by eexists [_; _] | by eexists [_; _; _] ].
Qed.

Lemma strip_non_digits_join (nd : char -> bool) (tokens : list pystr) :
  strip_non_digits nd (join (str " ") tokens)
  = strip_non_digits nd (concat tokens).
Proof.
  induction tokens as [|x l IH]; [done|].
  destruct l as [|y l]; [simpl; by rewrite app_nil_r|].
  change (join (str " ") (x :: y :: l))
    with (x ++ str " " ++ join (str " ") (y :: l)).
  change (concat (x :: y :: l)) with (x ++ concat (y :: l)).
  by rewrite !strip_non_digits_app, IH.
Qed.

(** X20: a number given in several arguments is normalised as if the
    arguments were written without the spaces that [main] puts between
    them. *)
Theorem normalise_join (nd : char -> bool) (tokens : list pystr) :
  normalise_phone_number nd (join (str " ") tokens)
  = normalise_phone_number nd (concat tokens).
Proof.
  unfold normalise_phone_number. by rewrite strip_non_digits_join.
Qed.

Lemma lstrip_plus_digits (d : pystr) :
  startswith d (str "7") = true ->
  lstrip (str "+") (str "+" ++ d) = d.
Proof.
  literals. intros (rest & -> & _)%startswith_cons. cbn [app lstrip].
  rewrite bool_decide_true by (by left).
  by rewrite bool_decide_false by (by intros [= ]%list_elem_of_singleton).
Qed.

(** X21: after a success, [value.lstrip("+")] removes the one leading
    ["+"]: the phone digit string handed to [find_match] is the 11-digit
    string that the format rules produced. *)
Theorem phone_digits_of_success (nd : char -> bool) (raw v : pystr) :
  normalise_phone_number nd raw = success v ->
  lstrip (str "+") v = drop 1 v
  /\ coerce (strip_non_digits nd raw) = Some (lstrip (str "+") v)
  /\ length (lstrip (str "+") v) = 11
  /\ startswith (lstrip (str "+") v) (str "79") = true.
Proof.
  rewrite normalise_by_digits. cbn zeta.
  destruct (coerce _) as [d|] eqn:Hc; [|done].
  destruct (startswith d (str "79")) eqn:H79; [|done]. intros Hv.
  assert (v = str "+" ++ d) as -> by (unfold success in Hv; congruence).
  clear Hv.
  assert (startswith d (str "7") = true) as H7.
  { revert H79. literals. intros (s' & -> & _)%startswith_cons.
    by rewrite startswith_step, startswith_nil. }
  rewrite (lstrip_plus_digits d H7). literals. cbn [app drop].
  rewrite drop_0. by rewrite (coerce_length _ _ Hc).
Qed.

Lemma phone_digits_of_success_witness :
  lstrip (str "+") (str "+79991234567") = drop 1 (str "+79991234567")
  /\ coerce (strip_non_digits nd_sample (str "8 (999) 123-45-67"))
     = Some (lstrip (str "+") (str "+79991234567"))
  /\ length (lstrip (str "+") (str "+79991234567")) = 11
  /\ startswith (lstrip (str "+") (str "+79991234567")) (str "79") = true.
Proof.
  apply (phone_digits_of_success nd_sample (str "8 (999) 123-45-67")).
  reflexivity.
Defined.

(** X22: without a phone argument, or with one that does not normalise,
    [main] returns 1 without asking the network and without touching the
    file. *)
Theorem main_invalid_input (nd : char -> bool)
    (load : bytes -> Loaded) (net : Urlopen)
    (file : option bytes) (argv : list pystr) :
  valid_input nd argv = false ->
  (run_main nd load net file argv).2 = Returned (Some 1%Z)
  /\ requests (run_main nd load net file argv).1 = 0
  /\ okved_json (run_main nd load net file argv).1 = file.
Proof.
  unfold valid_input.
  destruct (run_main_cases nd load net file argv) as (Hreq & Hfile & H).
  cbn zeta in H. destruct (phone_argument argv) as [p|].
  - intros Hok. rewrite Hok in H. by simpl in H.
  - intros _. by destruct H as (? & _).
Qed.

Lemma main_invalid_input_witness :
  let argv := [str "main.py"; str "8 (495)"; str "123-45-67"] in
  let run := run_main nd_sample sample_load (Responds 200 sample_content)
               None argv in
  run.2 = Returned (Some 1%Z) /\ requests run.1 = 0 /\ okved_json run.1 = None.
Proof.
  apply (main_invalid_input nd_sample sample_load
           (Responds 200 sample_content) None
           [str "main.py"; str "8 (495)"; str "123-45-67"]).
  reflexivity.
Defined.

(** X23: [main] never gets as far as opening a URL, and it never
    creates or rewrites [okved.json]: [JSON_URL] has no scheme, so the
    download raises before anything is sent, and whatever the input, the
    network and the file, no URL was opened and the file after the run is
    the file before it. *)
Theorem main_no_request_no_write (nd : char -> bool)
    (load : bytes -> Loaded) (net : Urlopen)
    (file : option bytes) (argv : list pystr) :
  requests (run_main nd load net file argv).1 = 0
  /\ okved_json (run_main nd load net file argv).1 = file.
Proof.
  by destruct (run_main_cases nd load net file argv) as (? & ? & _).
Qed.



(** X24: with a valid input and no file, the download raises the
    [ValueError] of the unknown url type of [JSON_URL]; [main] catches it,
    and its last three lines are the notice of the missing file,
    ["false"] and that very error; it returns 1, the file is still not
    there and the document is never read. *)
Theorem main_download_failure (nd : char -> bool)
    (load : bytes -> Loaded) (net : Urlopen) (argv : list pystr) :
  valid_input nd argv = true ->
  (forall s, download_okved_file net JSON_URL s
             = (s, inr (Uncaught (UnknownUrlType JSON_URL))))
  /\ (run_main nd load net None argv).2 = Returned (Some 1%Z)
  /\ okved_json (run_main nd load net None argv).1 = None
  /\ exists out,
       stdout (run_main nd load net None argv).1
       = out ++ [MissingLine; LowerFalseLine;
                 DownloadErrorLine (UnknownUrlType JSON_URL)].
Proof.
  unfold valid_input. intros Hok. split; [apply download_JSON_URL|].
  destruct (run_main_cases nd load net None argv) as (_ & Hfile & H).
  cbn zeta in H. destruct (phone_argument argv) as [p|]; [|done].
  rewrite Hok in H. simpl in H. by destruct H as (-> & ?).
Qed.

Lemma main_download_failure_witness :
  let run := run_main nd_sample sample_load (Responds 200 sample_content)
               None [str "main.py"; str "89991234567"] in
  (forall s, download_okved_file (Responds 200 sample_content) JSON_URL s
             = (s, inr (Uncaught (UnknownUrlType JSON_URL))))
  /\ run.2 = Returned (Some 1%Z)
  /\ okved_json run.1 = None
  /\ exists out,
       stdout run.1
       = out ++ [MissingLine; LowerFalseLine;
                 DownloadErrorLine (UnknownUrlType JSON_URL)].
Proof.
  apply (main_download_failure nd_sample sample_load
           (Responds 200 sample_content) [str "main.py"; str "89991234567"]).
  reflexivity.
Defined.





(** X27: a number split over several arguments ends the run as the same
    number given in one argument does: the same return value or
    exception, the same number of requests and the same file. *)
Theorem main_tokens (nd : char -> bool)
    (load : bytes -> Loaded) (net : Urlopen)
    (file : option bytes) (prog prog' t1 t2 : pystr) (rest : list pystr) :
  (run_main nd load net file (prog :: t1 :: t2 :: rest)).2
  = (run_main nd load net file [prog'; concat (t1 :: t2 :: rest)]).2
  /\ requests (run_main nd load net file (prog :: t1 :: t2 :: rest)).1
     = requests (run_main nd load net file
                   [prog'; concat (t1 :: t2 :: rest)]).1
  /\ okved_json (run_main nd load net file (prog :: t1 :: t2 :: rest)).1
     = okved_json (run_main nd load net file
                     [prog'; concat (t1 :: t2 :: rest)]).1.
Proof.
  destruct (run_main_cases nd load net file (prog :: t1 :: t2 :: rest))
    as (-> & -> & H1).
  destruct (run_main_cases nd load net file
              [prog'; concat (t1 :: t2 :: rest)]) as (-> & -> & H2).
  change (phone_argument (prog :: t1 :: t2 :: rest))
    with (Some (join (str " ") (t1 :: t2 :: rest))) in H1.
  change (phone_argument [prog'; concat (t1 :: t2 :: rest)])
    with (Some (concat (t1 :: t2 :: rest))) in H2.
  cbn zeta beta iota in H1, H2.
  assert (normalise_phone_number nd (join (str " ") (t1 :: t2 :: rest))
          = normalise_phone_number nd (concat (t1 :: t2 :: rest))) as Hn
    by (unfold normalise_phone_number; by rewrite strip_non_digits_join).
  rewrite Hn in H1.
  destruct (ok (normalise_phone_number nd (concat (t1 :: t2 :: rest))));
    cbn [negb] in H1, H2.
  - split; [|done].
    destruct file as [content|];
      [|destruct H1 as (-> & _), H2 as (-> & _); done].
    destruct (load content) as [data| |]; [|congruence..].
    destruct (value _) as [v|]; [|congruence].
    destruct (main_match _ _) as [[best n]|e]; [|congruence].
    destruct H1 as (-> & _), H2 as (-> & _); done.
  - split; [congruence|done].
Qed.
